(** * Image converter: the conversion pipeline of [src/App.tsx]

    The [App] component keeps five pieces of React state and one asynchronous
    function, [convertImage], which decodes the selected file through an
    [Image] element, paints it on a canvas and asks the canvas for a blob in
    the target format.  Decoding and encoding are done by the browser; the
    component only wires callbacks.  The development below models

    - the React state and its setters,
    - [onDrop], the dropzone options and the download name,
    - [convertImage] as a resumable run: the synchronous prefix up to the
      first [await], and one continuation per callback the browser may invoke
      ([image.onload], [image.onerror], the [toBlob] callback),
    - the page as a transition system over user events and browser callbacks.

    The browser is a parameter: [Platform] holds the synchronous calls, and the
    asynchronous answers arrive as events. *)

From Stdlib Require Import ZArith QArith String Ascii List.
From Stdlib.Strings Require Import Byte.
From stdpp Require Import base gmap strings list.

Local Open Scope Z_scope.
Local Open Scope string_scope.
Local Open Scope list_scope.

(** ** Data *)

(** [type ImageFormat = 'image/jpeg' | 'image/png' | 'image/webp' |
    'image/gif' | 'image/bmp'] (line 5). *)
Inductive ImageFormat : Type :=
  | ImageJpeg
  | ImagePng
  | ImageWebp
  | ImageGif
  | ImageBmp.

(** The runtime value of a format is its MIME string. *)
Definition mime (f : ImageFormat) : string :=
  match f with
  | ImageJpeg => "image/jpeg"
  | ImagePng => "image/png"
  | ImageWebp => "image/webp"
  | ImageGif => "image/gif"
  | ImageBmp => "image/bmp"
  end.

(** The formats the encoder may compress with loss. *)
Definition lossy (f : ImageFormat) : bool :=
  match f with
  | ImageJpeg | ImageWebp => true
  | _ => false
  end.

(** A [Blob]: bytes and a media type.  A [File] is a named blob. *)
Record Blob : Type := mkBlob {
  blob_type : string;
  blob_bytes : list byte
}.

Record File : Type := mkFile {
  file_name : string;
  file_blob : Blob
}.

(** One RGBA pixel, each channel in 0..255. *)
Record Pixel : Type := mkPixel {
  red : Z;
  green : Z;
  blue : Z;
  alpha : Z
}.

Definition transparentBlack : Pixel := mkPixel 0 0 0 0.

(** An [Image] element once it has loaded: its dimensions and its pixels,
    in row-major order. *)
Record Image : Type := mkImage {
  img_width : Z;
  img_height : Z;
  img_pixels : list Pixel
}.

(** A canvas: its [width] and [height] attributes and its bitmap. *)
Record Canvas : Type := mkCanvas {
  cv_width : Z;
  cv_height : Z;
  cv_pixels : list Pixel
}.

(** What [image.onerror] hands to [reject]: the browser's error event, which
    the component never inspects. *)
Definition JsError : Type := string.

(** [interface ConversionResult { url: string; format: ImageFormat }]
    (lines 7-10). *)
Record ConversionResult : Type := mkResult {
  url : string;
  format : ImageFormat
}.

(** A JavaScript value, as far as result objects hold them. *)
Inductive JsValue : Type :=
  | JsString (s : string)
  | JsBool (b : bool).

(** The object literal of lines 59-62 as the runtime sees it: a map from
    property names to values.  Reading a property that is not a key gives
    [undefined], here [None]. *)
Definition result_object (r : ConversionResult) : gmap string JsValue :=
  <["url" := JsString (url r)]> (<["format" := JsString (mime (format r))]> ∅).

(** ** React state (lines 13-17) *)

Record AppState : Type := mkApp {
  isDarkMode : bool;
  isConverting : bool;
  selectedFile : option File;
  convertedImage : option ConversionResult;
  targetFormat : ImageFormat
}.

Definition initialState : AppState :=
  mkApp false false None None ImagePng.

Definition setIsDarkMode (v : bool) (s : AppState) : AppState :=
  mkApp v (isConverting s) (selectedFile s) (convertedImage s) (targetFormat s).

Definition setIsConverting (v : bool) (s : AppState) : AppState :=
  mkApp (isDarkMode s) v (selectedFile s) (convertedImage s) (targetFormat s).

Definition setSelectedFile (v : option File) (s : AppState) : AppState :=
  mkApp (isDarkMode s) (isConverting s) v (convertedImage s) (targetFormat s).

Definition setConvertedImage (v : option ConversionResult) (s : AppState) : AppState :=
  mkApp (isDarkMode s) (isConverting s) (selectedFile s) v (targetFormat s).

Definition setTargetFormat (v : ImageFormat) (s : AppState) : AppState :=
  mkApp (isDarkMode s) (isConverting s) (selectedFile s) (convertedImage s) v.

(** ** The dropzone (lines 19-32) *)

(** [onDrop]: when at least one file was accepted, the first one becomes the
    selected file and the previous result is cleared. *)
Definition onDrop (acceptedFiles : list File) (s : AppState) : AppState :=
  if bool_decide (0 < Z.of_nat (length acceptedFiles))
  then setConvertedImage None (setSelectedFile (acceptedFiles !! 0%nat) s)
  else s.

(** The options handed to [useDropzone], without the [onDrop] callback. *)
Record DropzoneOptions : Type := mkDropzone {
  accept : gmap string (list string);
  multiple : bool
}.

Definition dropzoneOptions : DropzoneOptions :=
  mkDropzone
    {[ "image/*" := [".png"; ".jpg"; ".jpeg"; ".gif"; ".bmp"; ".webp"] ]}
    false.

(** *** How the dropzone matches a file

    Whether a dropped file reaches [onDrop] is decided by react-dropzone, a
    library the page imports (line 2) and which is no part of this
    repository.  Its rule, as the library applies it to the [accept] option:
    the keys and the extensions are put in one list, and a file is accepted
    when one entry matches, an entry with a leading dot against the end of
    the file name, an entry ending in [/*] against the part of the file's
    type before the slash, any other entry against the whole type; names and
    types are compared in lower case. *)

Definition lower_ascii (c : ascii) : ascii :=
  let n := nat_of_ascii c in
  if (65 <=? n)%nat && (n <=? 90)%nat then ascii_of_nat (n + 32) else c.

Fixpoint toLowerCase (s : string) : string :=
  match s with
  | EmptyString => EmptyString
  | String c rest => String (lower_ascii c) (toLowerCase rest)
  end.

(** [s.endsWith(suffix)] *)
Fixpoint endsWith (s suffix : string) : bool :=
  String.eqb s suffix ||
  match s with
  | EmptyString => false
  | String _ rest => endsWith rest suffix
  end.

(** [s.charAt(0) === '.'] *)
Definition startsWithDot (s : string) : bool :=
  match s with
  | String c _ => Ascii.eqb c "."
  | EmptyString => false
  end.

(** What stands before the first slash of a type (the library removes the
    slash and all that follows it). *)
Fixpoint beforeSlash (s : string) : string :=
  match s with
  | EmptyString => EmptyString
  | String c rest =>
      if Ascii.eqb c "/" then EmptyString else String c (beforeSlash rest)
  end.

(** The [accept] object as one list: each key followed by its extensions. *)
Definition acceptAttr (o : DropzoneOptions) : list string :=
  concat ((λ entry : string * list string, entry.1 :: entry.2) <$> map_to_list (accept o)).

(** One file against the list. *)
Definition accepts (entries : list string) (f : File) : bool :=
  let fileName := toLowerCase (file_name f) in
  let mimeType := toLowerCase (blob_type (file_blob f)) in
  let baseMimeType := beforeSlash mimeType in
  existsb
    (λ type : string,
       let validType := toLowerCase type in
       if startsWithDot validType then endsWith fileName validType
       else if endsWith validType "/*" then String.eqb baseMimeType (beforeSlash validType)
       else String.eqb mimeType validType)
    entries.

(** The library's [fileAccepted]: besides the list, files whose type is
    [application/x-moz-file] pass. *)
Definition fileAccepted (o : DropzoneOptions) (f : File) : bool :=
  String.eqb (blob_type (file_blob f)) "application/x-moz-file" ||
  accepts (acceptAttr o) f.

(** ** The download name (line 156) *)

(** [s.split(sep)] for a one-character separator. *)
Fixpoint split (sep : ascii) (s : string) : list string :=
  match s with
  | EmptyString => [EmptyString]
  | String c rest =>
      if Ascii.eqb c sep then EmptyString :: split sep rest
      else match split sep rest with
           | hd :: tl => String c hd :: tl
           | [] => [String c EmptyString]
           end
  end.

(** How a template literal renders an array element that may be missing. *)
Definition interpolate (v : option string) : string :=
  match v with
  | Some s => s
  | None => "undefined"
  end.

(** [`converted.${targetFormat.split('/')[1]}`] *)
Definition downloadName (fmt : ImageFormat) : string :=
  "converted." ++ interpolate (split "/" (mime fmt) !! 1%nat).

(** The [download] attribute of the link, rendered only when there is a
    converted image (line 147); it reads the [targetFormat] state. *)
Definition downloadAttribute (s : AppState) : option string :=
  match convertedImage s with
  | Some _ => Some (downloadName (targetFormat s))
  | None => None
  end.

(** The [href] of the same link (line 155). *)
Definition downloadHref (s : AppState) : option string :=
  url <$> convertedImage s.

(** ** The browser *)

(** The synchronous calls the component makes: [URL.createObjectURL] on a file
    or a blob, and whether [canvas.getContext('2d')] hands out a context. *)
Record Platform : Type := mkPlatform {
  createObjectURL : Blob → string;
  getContext2d : bool
}.

(** How the promise returned by an [async] function ends. *)
Inductive Completion : Type :=
  | Fulfilled
  | Rejected (reason : JsError).

(** Where a call of [convertImage] stands.  [AwaitLoad]: suspended on the
    promise of lines 43-47, with [image.onload] and [image.onerror] set.
    [AwaitBlob c pending]: suspended on the promise of lines 53-57, after
    [c.toBlob] was called; [pending] says whether the browser still has to
    invoke the callback, which it does once.  [Settled]: returned. *)
Inductive Stage : Type :=
  | AwaitLoad
  | AwaitBlob (canvas : Canvas) (callbackPending : bool)
  | Settled (c : Completion).

(** A call of [convertImage]: the state it closed over when it was called,
    the 2D context it obtained, and its stage. *)
Record Run : Type := mkRun {
  run_file : File;
  run_format : ImageFormat;
  run_ctx : bool;
  run_stage : Stage
}.

(** Calls that leave the component. *)
Inductive Effect : Type :=
  | ImageSrc (src : string)
  | ToBlob (canvas : Canvas) (type : ImageFormat) (quality : option Q)
  | ConsoleError (message : string) (error : JsError).

(** The page: React state, the [dark] class of the document element, the
    latest call of [convertImage], and the calls made so far, oldest first. *)
Record System : Type := mkSystem {
  app : AppState;
  docDark : bool;
  run : option Run;
  log : list Effect
}.

Definition initialSystem : System :=
  mkSystem initialState false None [].

Definition stage_of (σ : System) : option Stage :=
  run_stage <$> run σ.

(** A call is in flight when it has not returned. *)
Definition in_flight (σ : System) : bool :=
  match stage_of σ with
  | Some AwaitLoad | Some (AwaitBlob _ _) => true
  | _ => false
  end.

Definition completion_of (σ : System) : option Completion :=
  match stage_of σ with
  | Some (Settled c) => Some c
  | _ => None
  end.

(** The canvas after [canvas.width = image.width], [canvas.height =
    image.height] and [ctx?.drawImage(image, 0, 0)] (lines 49-51).  Setting
    the size clears the bitmap; without a context nothing is drawn. *)
Definition blank (w h : Z) : list Pixel :=
  replicate (Z.to_nat (w * h)) transparentBlack.

Definition paint (ctx : bool) (image : Image) : Canvas :=
  mkCanvas (img_width image) (img_height image)
    (if ctx then img_pixels image else blank (img_width image) (img_height image)).

Section Page.

Variable browser : Platform.

(** ** [convertImage] (lines 34-68) *)

(** Lines 35-47: the guard, [setIsConverting(true)], the image, the canvas
    and its context, and the first promise, whose executor sets the two
    handlers and the image source. *)
Definition convertImage (σ : System) : System :=
  match selectedFile (app σ) with
  | None => σ
  | Some file =>
      mkSystem (setIsConverting true (app σ)) (docDark σ)
        (Some (mkRun file (targetFormat (app σ)) (getContext2d browser) AwaitLoad))
        (log σ ++ [ImageSrc (createObjectURL browser (file_blob file))])
  end.

(** Lines 63-67 after a rejection: the [catch] block logs, the [finally]
    block clears the flag, and the function returns normally. *)
Definition catch_finally (r : Run) (error : JsError) (σ : System) : System :=
  mkSystem (setIsConverting false (app σ)) (docDark σ)
    (Some (mkRun (run_file r) (run_format r) (run_ctx r) (Settled Fulfilled)))
    (log σ ++ [ConsoleError "Error converting image:" error]).

(** [image.onload = resolve]: the run resumes at line 49, sizes and paints
    the canvas, and calls [canvas.toBlob(callback, targetFormat)], with no
    third argument. *)
Definition image_onload (r : Run) (image : Image) (σ : System) : System :=
  let canvas := paint (run_ctx r) image in
  mkSystem (app σ) (docDark σ)
    (Some (mkRun (run_file r) (run_format r) (run_ctx r) (AwaitBlob canvas true)))
    (log σ ++ [ToBlob canvas (run_format r) None]).

(** [image.onerror = reject]: the first [await] throws. *)
Definition image_onerror (r : Run) (error : JsError) (σ : System) : System :=
  catch_finally r error σ.

(** The callback of line 54, [(blob) => { if (blob) resolve(blob); }].  With
    a blob the run resumes at line 59, stores the result and goes through
    [finally].  With [null] the callback returns and nothing else happens:
    the promise stays pending and the browser has no callback left. *)
Definition toBlob_callback (r : Run) (canvas : Canvas) (blob : option Blob)
    (σ : System) : System :=
  match blob with
  | Some b =>
      mkSystem
        (setIsConverting false
           (setConvertedImage
              (Some (mkResult (createObjectURL browser b) (run_format r)))
              (app σ)))
        (docDark σ)
        (Some (mkRun (run_file r) (run_format r) (run_ctx r) (Settled Fulfilled)))
        (log σ)
  | None =>
      mkSystem (app σ) (docDark σ)
        (Some (mkRun (run_file r) (run_format r) (run_ctx r) (AwaitBlob canvas false)))
        (log σ)
  end.

(** [toggleDarkMode] (lines 70-73). *)
Definition toggleDarkMode (σ : System) : System :=
  mkSystem (setIsDarkMode (negb (isDarkMode (app σ))) (app σ))
    (negb (docDark σ)) (run σ) (log σ).

(** ** The page as a transition system *)

Inductive Event : Type :=
  | DropFiles (acceptedFiles : list File)
  | SelectFormat (fmt : ImageFormat)
  | ClickConvert
  | ClickToggle
  | ImageLoad (image : Image)
  | ImageError (error : JsError)
  | BlobCallback (blob : option Blob).

(** The events that come from the user. *)
Definition user_event (e : Event) : bool :=
  match e with
  | DropFiles _ | SelectFormat _ | ClickConvert | ClickToggle => true
  | _ => false
  end.

Definition with_app (f : AppState → AppState) (σ : System) : System :=
  mkSystem (f (app σ)) (docDark σ) (run σ) (log σ).

(** One event.  [None] when the event cannot happen in that state: the
    format picker and the convert button are rendered only with a selected
    file (line 108), the button is disabled while converting (line 129), and
    the browser invokes only the callbacks it was given and still owes. *)
Definition step (e : Event) (σ : System) : option System :=
  match e with
  | DropFiles acceptedFiles => Some (with_app (onDrop acceptedFiles) σ)
  | SelectFormat fmt =>
      match selectedFile (app σ) with
      | Some _ => Some (with_app (setTargetFormat fmt) σ)
      | None => None
      end
  | ClickConvert =>
      match selectedFile (app σ), isConverting (app σ) with
      | Some _, false => Some (convertImage σ)
      | _, _ => None
      end
  | ClickToggle => Some (toggleDarkMode σ)
  | ImageLoad image =>
      match run σ with
      | Some r =>
          match run_stage r with
          | AwaitLoad => Some (image_onload r image σ)
          | _ => None
          end
      | None => None
      end
  | ImageError error =>
      match run σ with
      | Some r =>
          match run_stage r with
          | AwaitLoad => Some (image_onerror r error σ)
          | _ => None
          end
      | None => None
      end
  | BlobCallback blob =>
      match run σ with
      | Some r =>
          match run_stage r with
          | AwaitBlob canvas true => Some (toBlob_callback r canvas blob σ)
          | _ => None
          end
      | None => None
      end
  end.

(** A sequence of events, first to last. *)
Fixpoint exec (es : list Event) (σ : System) : option System :=
  match es with
  | [] => Some σ
  | e :: rest =>
      match step e σ with
      | Some σ' => exec rest σ'
      | None => None
      end
  end.

(** The states the page can be in. *)
Definition reachable (σ : System) : Prop :=
  ∃ es : list Event, exec es initialSystem = Some σ.

End Page.

(** ** Sample inputs *)

(** A browser that names an object URL after the blob's media type and hands
    out a 2D context. *)
Definition sampleBrowser : Platform :=
  mkPlatform (fun b => ("blob:" ++ blob_type b)%string) true.

(** A PNG file (its signature bytes) and a text file with an image name. *)
Definition photo : File :=
  mkFile "photo.png" (mkBlob "image/png" [x89; x50; x4e; x47]).

Definition notes : File :=
  mkFile "notes.png" (mkBlob "image/png" [x68; x69]).

(** A 2x1 image whose first pixel is half transparent, and a 1x1 opaque one. *)
Definition translucent : Image :=
  mkImage 2 1 [mkPixel 255 0 0 128; mkPixel 0 0 255 255].

Definition opaque : Image :=
  mkImage 1 1 [mkPixel 10 20 30 255].

(** A 100000 x 100000 image: ten thousand million pixels. *)
Definition huge : Image :=
  mkImage 100000 100000
    (replicate (Z.to_nat (100000 * 100000)) (mkPixel 0 0 0 255)).

Definition pngBlob : Blob := mkBlob "image/png" [x89; x50; x4e; x47].
Definition jpegBlob : Blob := mkBlob "image/jpeg" [xff; xd8; xff].

(** A TIFF scan, as a scanner names and types it. *)
Definition scan : File :=
  mkFile "scan.tiff" (mkBlob "image/tiff" [x49; x49; x2a; x00]).

(** A browser without a 2D context. *)
Definition contextlessBrowser : Platform :=
  mkPlatform (fun b => ("blob:" ++ blob_type b)%string) false.

(** ** The browser's codecs

    Decoding (the [Image] element) and encoding ([canvas.toBlob]) are the
    browser's.  [decode] gives the image a blob holds, or nothing when the
    blob is no image the browser reads; [encode] gives the blob [toBlob]
    hands to its callback for a canvas and a type, or nothing ([null]). *)
Record Codec : Type := mkCodec {
  decode : Blob → option Image;
  encode : Canvas → ImageFormat → option Blob
}.

(** An encoder keeps dimensions when every blob it produces decodes to an
    image of the size of the canvas it was produced from. *)
Definition encoder_keeps_dimensions (codec : Codec) : Prop :=
  ∀ (c : Canvas) (fmt : ImageFormat) (b : Blob),
    encode codec c fmt = Some b →
    ∃ image' : Image,
      decode codec b = Some image' ∧
      img_width image' = cv_width c ∧ img_height image' = cv_height c.

(** A callback of the image element agrees with the decoder when [onload]
    comes with the image the file decodes to, and [onerror] only for a file
    that does not decode. *)
Definition decoder_answer (codec : Codec) (file : File) (e : Event) : Prop :=
  match e with
  | ImageLoad image => decode codec (file_blob file) = Some image
  | ImageError _ => decode codec (file_blob file) = None
  | _ => True
  end.

(** A small codec to run examples with: a blob is the byte [x89], then the
    width and the height as one byte each; sizes from 1 to 255 only. *)
Definition sampleDecode (b : Blob) : option Image :=
  match blob_bytes b with
  | x89 :: w :: h :: _ =>
      if ((0 <? Z.of_N (Byte.to_N w)) && (0 <? Z.of_N (Byte.to_N h)))%Z
      then Some (mkImage (Z.of_N (Byte.to_N w)) (Z.of_N (Byte.to_N h)) [])
      else None
  | _ => None
  end.

Definition sampleEncode (c : Canvas) (fmt : ImageFormat) : option Blob :=
  if ((0 <? cv_width c) && (0 <? cv_height c))%Z
  then match Byte.of_N (Z.to_N (cv_width c)), Byte.of_N (Z.to_N (cv_height c)) with
       | Some w, Some h => Some (mkBlob (mime fmt) [x89; w; h])
       | _, _ => None
       end
  else None.

Definition sampleCodec : Codec := mkCodec sampleDecode sampleEncode.

(** A pixel that is not fully opaque. *)
Definition has_transparency (image : Image) : Prop :=
  ∃ p : Pixel, p ∈ img_pixels image ∧ alpha p < 255.

(** The invariant behind the disabled button: a call in flight keeps the
    converting flag set. *)
Definition flag_covers_run (σ : System) : Prop :=
  in_flight σ = true → isConverting (app σ) = true.

(** A call whose second promise can no longer be resolved: it waits for the
    blob, and the browser has already used the callback. *)
Definition stalled (σ : System) : Prop :=
  ∃ (r : Run) (c : Canvas), run σ = Some r ∧ run_stage r = AwaitBlob c false.

(** What a stalled page keeps, relative to the state [σ0] in which the call
    stalled. *)
Definition stalled_since (σ0 σ : System) : Prop :=
  stalled σ ∧ isConverting (app σ) = true ∧ log σ = log σ0 ∧
  (convertedImage (app σ) = convertedImage (app σ0) ∨ convertedImage (app σ) = None).

(** Every [toBlob] call made so far has no quality argument. *)
Definition quality_omitted (σ : System) : Prop :=
  ∀ (c : Canvas) (fmt : ImageFormat) (q : option Q),
    ToBlob c fmt q ∈ log σ → q = None.

(** While a call waits for its blob, its [toBlob] call is the latest call the
    page made, and it carries the canvas and the format of that call. *)
Definition toBlob_is_latest (σ : System) : Prop :=
  ∀ (r : Run) (c : Canvas) (pending : bool),
    run σ = Some r → run_stage r = AwaitBlob c pending →
    ∃ l : list Effect, log σ = l ++ [ToBlob c (run_format r) None].

(** ** The share button (lines 162-169) *)

(** The argument of [navigator.share]. *)
Record ShareData : Type := mkShare {
  share_title : string;
  share_text : string;
  share_url : string
}.

(** What a click on the share button hands to [navigator.share]; the button
    is rendered only with a converted image (line 147). *)
Definition shareData (s : AppState) : option ShareData :=
  match convertedImage s with
  | Some res => Some (mkShare "Converted Image" "Check out my converted image!" (url res))
  | None => None
  end.

(** ** Invariants of the page *)

(** The converting flag says exactly whether a call is in flight. *)
Definition flag_tracks_run (σ : System) : Prop :=
  isConverting (app σ) = in_flight σ.

(** The events of a conversion: the click that starts it and the browser's
    callbacks. *)
Definition conversion_event (e : Event) : bool :=
  match e with
  | ClickConvert | ImageLoad _ | ImageError _ | BlobCallback _ => true
  | _ => false
  end.

(** What the user chose: the file, the format and the theme. *)
Definition same_choices (σ σ' : System) : Prop :=
  selectedFile (app σ') = selectedFile (app σ) ∧
  targetFormat (app σ') = targetFormat (app σ) ∧
  isDarkMode (app σ') = isDarkMode (app σ) ∧
  docDark σ' = docDark σ.

(** Counting the calls of one kind in a log. *)
Definition is_src (e : Effect) : bool :=
  match e with ImageSrc _ => true | _ => false end.

Definition is_toBlob (e : Effect) : bool :=
  match e with ToBlob _ _ _ => true | _ => false end.

Definition is_error (e : Effect) : bool :=
  match e with ConsoleError _ _ => true | _ => false end.

Definition calls (kind : Effect → bool) (l : list Effect) : nat :=
  length (List.filter kind l).

(** One when the latest call still waits for its image. *)
Definition awaiting_image (σ : System) : nat :=
  match stage_of σ with
  | Some AwaitLoad => 1
  | _ => 0
  end.

(** Every image source set so far led to one [toBlob] call or one console
    message, except the one still being loaded. *)
Definition log_accounted (σ : System) : Prop :=
  calls is_src (log σ) =
    (calls is_toBlob (log σ) + calls is_error (log σ) + awaiting_image σ)%nat.

(** No call has ended in a rejection. *)
Definition never_rejected (σ : System) : Prop :=
  completion_of σ = None ∨ completion_of σ = Some Fulfilled.

(** * Properties *)

Section Properties.

Variable browser : Platform.

Local Abbreviation step := (step browser).
Local Abbreviation exec := (exec browser).
Local Abbreviation reachable := (reachable browser).

(** ** Traces *)

Lemma exec_app (es1 es2 : list Event) (σ : System) :
  exec (es1 ++ es2) σ = exec es1 σ ≫= exec es2.
Proof.
  revert σ. induction es1 as [|e es1 IH]; intros σ; simpl; [done|].
  destruct (step e σ); simpl; auto.
Qed.

Lemma exec_snoc (es : list Event) (e : Event) (σ σ' σ'' : System) :
  exec es σ = Some σ' → step e σ' = Some σ'' → exec (es ++ [e]) σ = Some σ''.
Proof.
  intros H1 H2. rewrite exec_app, H1. simpl. by rewrite H2.
Qed.

Lemma reachable_step (e : Event) (σ σ' : System) :
  reachable σ → step e σ = Some σ' → reachable σ'.
Proof.
  intros [es Hes] Hstep. exists (es ++ [e]). eauto using exec_snoc.
Qed.

Lemma reachable_exec (es : list Event) (σ σ' : System) :
  reachable σ → exec es σ = Some σ' → reachable σ'.
Proof.
  intros [es0 Hes0] Hes. exists (es0 ++ es). by rewrite exec_app, Hes0.
Qed.

(** An invariant of [step] that holds initially holds in every state a trace
    leads to. *)
Lemma exec_invariant (I : System → Prop) :
  (∀ e σ σ', I σ → step e σ = Some σ' → I σ') →
  ∀ es σ σ', I σ → exec es σ = Some σ' → I σ'.
Proof.
  intros Hstep es. induction es as [|e es IH]; intros σ σ' HI Hex; simpl in Hex.
  - by simplify_eq.
  - destruct (step e σ) as [σ1|] eqn:He; [|done]. eauto.
Qed.

(** ** The setters touch one field each *)

Lemma onDrop_isConverting (files : list File) (s : AppState) :
  isConverting (onDrop files s) = isConverting s.
Proof. unfold onDrop. by case_bool_decide. Qed.

Lemma onDrop_convertedImage (files : list File) (s : AppState) :
  convertedImage (onDrop files s) = convertedImage s ∨
  convertedImage (onDrop files s) = None.
Proof. unfold onDrop. case_bool_decide; auto. Qed.

Lemma onDrop_selectedFile (files : list File) (s : AppState) :
  selectedFile (onDrop files s) =
    match files with
    | [] => selectedFile s
    | f :: _ => Some f
    end.
Proof.
  unfold onDrop. destruct files as [|f files]; [done|].
  rewrite bool_decide_eq_true_2; [done|]. rewrite length_cons. lia.
Qed.

(** ** The converting flag covers every call in flight *)

Lemma flag_covers_run_step (e : Event) (σ σ' : System) :
  flag_covers_run σ → step e σ = Some σ' → flag_covers_run σ'.
Proof.
  unfold flag_covers_run, in_flight, stage_of. intros HI Hstep.
  destruct e; simpl in Hstep.
  - simplify_eq. simpl. rewrite onDrop_isConverting. done.
  - destruct (selectedFile (app σ)); simplify_eq. done.
  - destruct (selectedFile (app σ)) as [f|] eqn:Hf; [|done].
    destruct (isConverting (app σ)); simplify_eq.
    unfold convertImage. rewrite Hf. done.
  - simplify_eq. done.
  - destruct (run σ) as [r|]; [|done]. simpl in HI.
    destruct (run_stage r); simplify_eq. simpl. auto.
  - destruct (run σ) as [r|]; [|done].
    destruct (run_stage r); simplify_eq. done.
  - destruct (run σ) as [r|]; [|done]. simpl in HI.
    destruct (run_stage r) as [|c [|]|]; simplify_eq.
    destruct blob; simpl; [done|auto].
Qed.

Lemma flag_covers_run_reachable (σ : System) :
  reachable σ → flag_covers_run σ.
Proof.
  intros [es Hes].
  eapply (exec_invariant flag_covers_run); [apply flag_covers_run_step| |exact Hes].
  done.
Qed.

(** ** A stalled call stays stalled *)

Lemma stalled_since_step (σ0 : System) (e : Event) (σ σ' : System) :
  stalled_since σ0 σ → step e σ = Some σ' → stalled_since σ0 σ'.
Proof.
  intros ([r [c [Hr Hst]]] & Hflag & Hlog & Hres) Hstep.
  unfold stalled_since, stalled.
  destruct e; simpl in Hstep.
  - simplify_eq. simpl. rewrite onDrop_isConverting. split_and!; eauto.
    destruct (onDrop_convertedImage acceptedFiles (app σ)) as [->| ->]; auto.
  - destruct (selectedFile (app σ)); simplify_eq. simpl. split_and!; eauto.
  - destruct (selectedFile (app σ)); [|done]. by rewrite Hflag in Hstep.
  - simplify_eq. simpl. split_and!; eauto.
  - rewrite Hr, Hst in Hstep. done.
  - rewrite Hr, Hst in Hstep. done.
  - rewrite Hr, Hst in Hstep. done.
Qed.

Lemma stalled_since_exec (σ0 : System) (es : list Event) (σ σ' : System) :
  stalled_since σ0 σ → exec es σ = Some σ' → stalled_since σ0 σ'.
Proof.
  apply (exec_invariant (stalled_since σ0)). apply stalled_since_step.
Qed.

Lemma stalled_not_settled (σ : System) :
  stalled σ → in_flight σ = true ∧ completion_of σ = None.
Proof.
  intros [r [c [Hr Hst]]]. unfold in_flight, completion_of, stage_of.
  rewrite Hr. simpl. by rewrite Hst.
Qed.

(** C9: once the browser has invoked the [toBlob] callback with [null], the
    call of [convertImage] never returns.  In every state the page can reach
    afterwards, whatever the user and the browser do, the call is still
    suspended on the blob promise, it has no completion, the converting flag
    is set, nothing was logged (no error is reported), and the converted
    image is what it was or was cleared by a drop: this call sets no
    result. *)
Theorem null_blob_never_settles (before after : list Event) (σ σ' : System) :
  exec before initialSystem = Some σ →
  exec (BlobCallback None :: after) σ = Some σ' →
  stalled σ' ∧ in_flight σ' = true ∧ completion_of σ' = None ∧
  isConverting (app σ') = true ∧
  log σ' = log σ ∧
  (convertedImage (app σ') = convertedImage (app σ) ∨ convertedImage (app σ') = None).
Proof.
  intros Hbefore Hafter.
  assert (Hflag : flag_covers_run σ) by (apply flag_covers_run_reachable; by exists before).
  simpl in Hafter.
  destruct (run σ) as [r|] eqn:Hr; [|done].
  destruct (run_stage r) as [|c [|]|] eqn:Hst; try done.
  assert (Hconv : isConverting (app σ) = true).
  { apply Hflag. unfold in_flight, stage_of. rewrite Hr. simpl. by rewrite Hst. }
  assert (H0 : stalled_since σ (toBlob_callback browser r c None σ)).
  { unfold stalled_since, stalled. simpl. split_and!; eauto. }
  destruct (stalled_since_exec _ _ _ _ H0 Hafter) as (Hs & Hc & Hl & Hres).
  destruct (stalled_not_settled _ Hs) as [Hin Hcompl].
  split_and!; done.
Qed.

(** C10: without a selected file, [convertImage] changes nothing: the React
    state (converting flag, converted image, selected file, target format),
    the call in flight and the log are what they were. *)
Theorem convertImage_without_file (σ : System) :
  selectedFile (app σ) = None → convertImage browser σ = σ.
Proof.
  intros Hnone. unfold convertImage. by rewrite Hnone.
Qed.

(** ** Failures *)

(** C1, as the code has it: when decoding fails ([image.onerror] fires while
    the call waits for the image), the call stops there.  The encoder is not
    called (nothing but the console message is logged, and no blob callback
    is owed), the error event goes to the console as it is, the call returns
    normally to its caller, the converting flag is cleared, and the converted
    image is left as it was. *)
Theorem decode_failure_aborts (σ : System) (r : Run) (error : JsError) :
  run σ = Some r → run_stage r = AwaitLoad →
  ∃ σ' : System,
    step (ImageError error) σ = Some σ' ∧
    completion_of σ' = Some Fulfilled ∧
    log σ' = log σ ++ [ConsoleError "Error converting image:" error] ∧
    isConverting (app σ') = false ∧
    convertedImage (app σ') = convertedImage (app σ) ∧
    (∀ blob : option Blob, step (BlobCallback blob) σ' = None).
Proof.
  intros Hr Hst. exists (image_onerror r error σ).
  simpl. rewrite Hr, Hst. split_and!; done.
Qed.

Lemma user_step_while_in_flight (e : Event) (σ σ' : System) :
  user_event e = true → flag_covers_run σ → in_flight σ = true →
  step e σ = Some σ' →
  run σ' = run σ ∧ log σ' = log σ ∧
  (convertedImage (app σ) = None → convertedImage (app σ') = None).
Proof.
  intros He Hflag Hin Hstep. destruct e; try done; simpl in Hstep.
  - simplify_eq. simpl. split_and!; [done|done|]. intros Hnone.
    destruct (onDrop_convertedImage acceptedFiles (app σ)) as [->| ->]; done.
  - destruct (selectedFile (app σ)); by simplify_eq.
  - rewrite (Hflag Hin) in Hstep. by destruct (selectedFile (app σ)).
  - by simplify_eq.
Qed.

Lemma user_exec_while_in_flight (es : list Event) (σ σ' : System) :
  Forall (λ e, user_event e = true) es → flag_covers_run σ → in_flight σ = true →
  exec es σ = Some σ' →
  run σ' = run σ ∧ log σ' = log σ ∧
  (convertedImage (app σ) = None → convertedImage (app σ') = None).
Proof.
  intros Hes. revert σ. induction Hes as [|e es He _ IH]; intros σ Hflag Hin Hex;
    simpl in Hex; [by simplify_eq|].
  destruct (step e σ) as [σ1|] eqn:Hstep; [|done].
  destruct (user_step_while_in_flight _ _ _ He Hflag Hin Hstep) as (Hrun & Hlog & Hres).
  destruct (IH σ1) as (Hrun' & Hlog' & Hres'); [by eapply flag_covers_run_step| |done|].
  { unfold in_flight, stage_of in *. by rewrite Hrun. }
  split_and!; [congruence|congruence|auto].
Qed.


(** ** The result object *)

(** C2, as the code has it: the result stored after a successful encode is
    the object URL of the blob and the format the call closed over, whatever
    the canvas held.  The object has the two keys [url] and [format] and no
    loss flag: reading [alphaDropped] or [qualityReduced] gives [undefined]. *)
Theorem result_has_url_and_format_only
    (r : Run) (c : Canvas) (b : Blob) (σ : System) :
  ∃ res : ConversionResult,
    convertedImage (app (toBlob_callback browser r c (Some b) σ)) = Some res ∧
    res = mkResult (createObjectURL browser b) (run_format r) ∧
    dom (result_object res) = ({["url"; "format"]} : gset string) ∧
    result_object res !! "alphaDropped" = None ∧
    result_object res !! "qualityReduced" = None.
Proof.
  eexists. split; [reflexivity|]. split; [reflexivity|].
  unfold result_object. split_and!.
  - rewrite !dom_insert_L, dom_empty_L. set_solver.
  - by rewrite !lookup_insert_ne, lookup_empty.
  - by rewrite !lookup_insert_ne, lookup_empty.
Qed.

(** ** Sizes *)

(** C3, as the code has it: there is no size ceiling.  Whatever the width and
    height of the decoded image, the canvas takes them, the call hands that
    canvas to [toBlob], and when the browser delivers a blob the result is
    stored. *)
Theorem any_size_is_encoded (σ : System) (r : Run) (image : Image) :
  run σ = Some r → run_stage r = AwaitLoad →
  ∃ (σ1 : System) (c : Canvas),
    step (ImageLoad image) σ = Some σ1 ∧
    cv_width c = img_width image ∧ cv_height c = img_height image ∧
    log σ1 = log σ ++ [ToBlob c (run_format r) None] ∧
    ∀ b : Blob, ∃ σ2 : System,
      step (BlobCallback (Some b)) σ1 = Some σ2 ∧
      convertedImage (app σ2) =
        Some (mkResult (createObjectURL browser b) (run_format r)).
Proof.
  intros Hr Hst.
  exists (image_onload r image σ), (paint (run_ctx r) image).
  simpl. rewrite Hr, Hst. split_and!; try done.
  intros b. eexists. split; reflexivity.
Qed.

(** ** Dimensions *)

Lemma user_step_keeps_run (e : Event) (σ σ' : System) :
  user_event e = true → flag_covers_run σ → in_flight σ = true →
  step e σ = Some σ' → run σ' = run σ.
Proof.
  intros He Hflag Hin Hstep. destruct e; try done; simpl in Hstep.
  - by simplify_eq.
  - destruct (selectedFile (app σ)); by simplify_eq.
  - rewrite (Hflag Hin) in Hstep. by destruct (selectedFile (app σ)).
  - by simplify_eq.
Qed.

Lemma user_exec_keeps_run (es : list Event) (σ σ' : System) :
  Forall (λ e, user_event e = true) es → flag_covers_run σ → in_flight σ = true →
  exec es σ = Some σ' → run σ' = run σ.
Proof.
  intros Hes. revert σ. induction Hes as [|e es He _ IH]; intros σ Hflag Hin Hex;
    simpl in Hex; [by simplify_eq|].
  destruct (step e σ) as [σ1|] eqn:Hstep; [|done].
  pose proof (user_step_keeps_run _ _ _ He Hflag Hin Hstep) as Hrun.
  rewrite <- Hrun. apply IH; [by eapply flag_covers_run_step| |done].
  unfold in_flight, stage_of in *. by rewrite Hrun.
Qed.


(** ** Encoder arguments *)

Lemma quality_omitted_step (e : Event) (σ σ' : System) :
  quality_omitted σ → step e σ = Some σ' → quality_omitted σ'.
Proof.
  unfold quality_omitted. intros HI Hstep c fmt q Hin.
  destruct e; simpl in Hstep.
  - simplify_eq. eauto.
  - destruct (selectedFile (app σ)); simplify_eq. eauto.
  - destruct (selectedFile (app σ)) as [f|] eqn:Hf; [|done].
    destruct (isConverting (app σ)); simplify_eq.
    unfold convertImage in Hin. rewrite Hf in Hin. simpl in Hin.
    apply elem_of_app in Hin as [Hin|Hin]; [eauto|].
    apply list_elem_of_singleton in Hin. done.
  - simplify_eq. eauto.
  - destruct (run σ) as [r|]; [|done].
    destruct (run_stage r); simplify_eq. simpl in Hin.
    apply elem_of_app in Hin as [Hin|Hin]; [eauto|].
    apply list_elem_of_singleton in Hin. by simplify_eq.
  - destruct (run σ) as [r|]; [|done].
    destruct (run_stage r); simplify_eq. simpl in Hin.
    apply elem_of_app in Hin as [Hin|Hin]; [eauto|].
    apply list_elem_of_singleton in Hin. done.
  - destruct (run σ) as [r|]; [|done].
    destruct (run_stage r) as [|c' [|]|]; simplify_eq.
    destruct blob; simpl in Hin; eauto.
Qed.


Lemma toBlob_is_latest_step (e : Event) (σ σ' : System) :
  toBlob_is_latest σ → step e σ = Some σ' → toBlob_is_latest σ'.
Proof.
  unfold toBlob_is_latest. intros HI Hstep r' c' pending' Hr' Hst'.
  destruct e; simpl in Hstep.
  - simplify_eq. eauto.
  - destruct (selectedFile (app σ)); simplify_eq. eauto.
  - destruct (selectedFile (app σ)) as [f|] eqn:Hf; [|done].
    destruct (isConverting (app σ)); simplify_eq.
    unfold convertImage in Hr'. rewrite Hf in Hr'. simpl in Hr'. by simplify_eq.
  - simplify_eq. eauto.
  - destruct (run σ) as [r|] eqn:Hr; [|done].
    destruct (run_stage r); simplify_eq. simpl in Hr'. simplify_eq.
    simpl in Hst'. simplify_eq. simpl. eauto.
  - destruct (run σ) as [r|] eqn:Hr; [|done].
    destruct (run_stage r); simplify_eq. simpl in Hr'. by simplify_eq.
  - destruct (run σ) as [r|] eqn:Hr; [|done].
    destruct (run_stage r) as [|c [|]|] eqn:Hst; simplify_eq.
    destruct blob; simpl in Hr'; simplify_eq; simpl in Hst'; simplify_eq.
    simpl. eauto.
Qed.


(** ** Accepted input *)

Lemma acceptAttr_dropzoneOptions :
  acceptAttr dropzoneOptions =
    ["image/*"; ".png"; ".jpg"; ".jpeg"; ".gif"; ".bmp"; ".webp"].
Proof.
  unfold acceptAttr, dropzoneOptions. simpl.
  by rewrite map_to_list_singleton.
Qed.

Lemma fileAccepted_dropzoneOptions (f : File) :
  fileAccepted dropzoneOptions f =
    String.eqb (blob_type (file_blob f)) "application/x-moz-file" ||
    (String.eqb (beforeSlash (toLowerCase (blob_type (file_blob f)))) "image" ||
     (endsWith (toLowerCase (file_name f)) ".png" ||
      (endsWith (toLowerCase (file_name f)) ".jpg" ||
       (endsWith (toLowerCase (file_name f)) ".jpeg" ||
        (endsWith (toLowerCase (file_name f)) ".gif" ||
         (endsWith (toLowerCase (file_name f)) ".bmp" ||
          (endsWith (toLowerCase (file_name f)) ".webp" || false))))))).
Proof.
  unfold fileAccepted, accepts. rewrite acceptAttr_dropzoneOptions. reflexivity.
Qed.

(** C8, as the code has it: the dropzone takes a file when its type is an
    image type (it matches the key [image/*]) or when its name ends in
    [.png], [.jpg], [.jpeg], [.gif], [.bmp] or [.webp], so images with other
    extensions are taken too; it is configured for a single file
    ([multiple: false]); and of the files a drop hands to [onDrop] only the
    first becomes the selected file, the one a conversion works on. *)
Theorem dropzone_accepts_images_and_listed_extensions :
  (∀ f : File,
     fileAccepted dropzoneOptions f = true ↔
     blob_type (file_blob f) = "application/x-moz-file" ∨
     beforeSlash (toLowerCase (blob_type (file_blob f))) = "image" ∨
     ∃ e : string,
       e ∈ [".png"; ".jpg"; ".jpeg"; ".gif"; ".bmp"; ".webp"] ∧
       endsWith (toLowerCase (file_name f)) e = true) ∧
  multiple dropzoneOptions = false ∧
  (∀ (f : File) (others : list File) (s : AppState),
     selectedFile (onDrop (f :: others) s) = Some f) ∧
  (∀ (σ : System) (f : File),
     selectedFile (app σ) = Some f →
     run_file <$> run (convertImage browser σ) = Some f).
Proof.
  split_and!.
  - intros f. rewrite fileAccepted_dropzoneOptions.
    rewrite !orb_true_iff, !String.eqb_eq. split.
    + intros [H|[H|H]]; [by left|by right; left|right; right].
      destruct H as [H|[H|[H|[H|[H|[H|H]]]]]]; [..|done];
        eexists; (split; [|exact H]); set_solver.
    + intros [H|[H|(e & He & H)]]; [by left|by right; left|right; right].
      repeat (apply elem_of_cons in He as [->|He]; [tauto|]).
      by apply elem_of_nil in He.
  - done.
  - intros f others s. by rewrite onDrop_selectedFile.
  - intros σ f Hf. unfold convertImage. by rewrite Hf.
Qed.

End Properties.

(** * Scenarios *)

(** ** The download name *)

Lemma downloadName_cases :
  downloadName ImageJpeg = "converted.jpeg" ∧
  downloadName ImagePng = "converted.png" ∧
  downloadName ImageWebp = "converted.webp" ∧
  downloadName ImageGif = "converted.gif" ∧
  downloadName ImageBmp = "converted.bmp".
Proof. repeat split. Qed.

(** C7: after a file was converted to PNG, choosing JPEG in the picker
    changes the name offered for download to [converted.jpeg], while the
    stored result is still the PNG one: the link reads the picker's state and
    not the format recorded in the result. *)
Theorem download_name_follows_picker :
  ∃ (σ : System) (res : ConversionResult),
    exec sampleBrowser
      [DropFiles [photo]; ClickConvert; ImageLoad opaque;
       BlobCallback (Some pngBlob); SelectFormat ImageJpeg]
      initialSystem = Some σ ∧
    convertedImage (app σ) = Some res ∧
    format res = ImagePng ∧
    downloadHref (app σ) = Some "blob:image/png" ∧
    downloadAttribute (app σ) = Some "converted.jpeg" ∧
    downloadName (format res) = "converted.png".
Proof.
  eexists _, _. split; [reflexivity|]. repeat split.
Qed.

(** ** Counterexamples *)

(** C1 does not hold as stated.  When decoding fails the call returns
    normally: its completion is [Fulfilled], not a rejection with an error,
    and the error event only reaches the console.  When encoding fails (a
    [null] blob) the call has no completion at all and nothing is logged. *)
Lemma stage_failures_are_not_reported :
  (∃ σ : System,
     exec sampleBrowser [DropFiles [notes]; ClickConvert; ImageError "error"]
       initialSystem = Some σ ∧
     completion_of σ = Some Fulfilled ∧
     log σ = [ImageSrc "blob:image/png";
              ConsoleError "Error converting image:" "error"]) ∧
  (∃ σ : System,
     exec sampleBrowser
       [DropFiles [photo]; ClickConvert; ImageLoad opaque; BlobCallback None]
       initialSystem = Some σ ∧
     completion_of σ = None ∧
     isConverting (app σ) = true ∧
     log σ = [ImageSrc "blob:image/png";
              ToBlob (paint true opaque) ImagePng None]).
Proof.
  split; eexists; (split; [reflexivity|]); repeat split.
Qed.

(** C2 does not hold as stated.  Converting an image with a half-transparent
    pixel to JPEG stores a result whose [alphaDropped] property is
    [undefined], not [true]. *)
Lemma alpha_flag_is_never_set :
  ∃ (σ : System) (res : ConversionResult),
    exec sampleBrowser
      [DropFiles [photo]; SelectFormat ImageJpeg; ClickConvert;
       ImageLoad translucent; BlobCallback (Some jpegBlob)]
      initialSystem = Some σ ∧
    has_transparency translucent ∧
    convertedImage (app σ) = Some res ∧
    format res = ImageJpeg ∧
    result_object res !! "alphaDropped" = None ∧
    result_object res !! "alphaDropped" ≠ Some (JsBool true).
Proof.
  eexists _, (mkResult "blob:image/jpeg" ImageJpeg). split; [reflexivity|]. split.
  { exists (mkPixel 255 0 0 128). split; [apply list_elem_of_here|done]. }
  split; [reflexivity|]. split; [reflexivity|].
  assert (H : result_object (mkResult "blob:image/jpeg" ImageJpeg) !! "alphaDropped" = None).
  { unfold result_object. by rewrite !lookup_insert_ne, lookup_empty. }
  split; [exact H|]. by rewrite H.
Qed.

(** C3 does not hold as stated.  An image of 100000 x 100000 pixels is not
    rejected: the canvas is given that size and handed to [toBlob], and when
    the browser delivers a blob the result is stored. *)
Lemma huge_raster_is_converted :
  ∃ (σ : System) (c : Canvas),
    exec sampleBrowser
      [DropFiles [photo]; ClickConvert; ImageLoad huge; BlobCallback (Some pngBlob)]
      initialSystem = Some σ ∧
    img_width huge * img_height huge = 10000000000 ∧
    cv_width c = 100000 ∧ cv_height c = 100000 ∧
    log σ = [ImageSrc "blob:image/png"; ToBlob c ImagePng None] ∧
    completion_of σ = Some Fulfilled ∧
    convertedImage (app σ) = Some (mkResult "blob:image/png" ImagePng).
Proof.
  eexists _, (paint true huge). split; [reflexivity|]. repeat split.
Qed.


(** C8 does not hold as stated.  [scan.tiff], of type [image/tiff], ends in
    none of the six extensions and is accepted all the same, through the key
    [image/*]; dropped, it becomes the selected file and a conversion of it
    starts. *)
Lemma tiff_scan_is_accepted :
  fileAccepted dropzoneOptions scan = true ∧
  Forall (λ e : string, endsWith (toLowerCase (file_name scan)) e = false)
    [".png"; ".jpg"; ".jpeg"; ".gif"; ".bmp"; ".webp"] ∧
  ∃ σ : System,
    exec sampleBrowser [DropFiles [scan]; ClickConvert] initialSystem = Some σ ∧
    selectedFile (app σ) = Some scan ∧
    run_file <$> run σ = Some scan ∧
    log σ = [ImageSrc "blob:image/tiff"].
Proof.
  split; [by rewrite fileAccepted_dropzoneOptions|].
  split; [repeat constructor|].
  eexists. split; [reflexivity|]. repeat split.
Qed.

(** ** Instances *)

(** [notes] was dropped and the conversion started; the browser then reports
    that it cannot decode the file. *)
Lemma decode_failure_aborts_at_notes :
  ∃ (σ : System) (r : Run),
    exec sampleBrowser [DropFiles [notes]; ClickConvert] initialSystem = Some σ ∧
    run σ = Some r ∧ run_stage r = AwaitLoad ∧
    ∃ σ' : System,
      step sampleBrowser (ImageError "error") σ = Some σ' ∧
      completion_of σ' = Some Fulfilled ∧
      log σ' = log σ ++ [ConsoleError "Error converting image:" "error"] ∧
      isConverting (app σ') = false ∧
      convertedImage (app σ') = convertedImage (app σ) ∧
      (∀ blob : option Blob, step sampleBrowser (BlobCallback blob) σ' = None).
Proof.
  eexists _, _. split; [reflexivity|]. split; [reflexivity|]. split; [reflexivity|].
  eapply decode_failure_aborts; reflexivity.
Defined.


(** The 100000 x 100000 image goes to the encoder at its full size. *)
Lemma huge_image_is_encoded :
  ∃ (σ : System) (r : Run),
    exec sampleBrowser [DropFiles [photo]; ClickConvert] initialSystem = Some σ ∧
    run σ = Some r ∧ run_stage r = AwaitLoad ∧
    ∃ (σ1 : System) (c : Canvas),
      step sampleBrowser (ImageLoad huge) σ = Some σ1 ∧
      cv_width c = img_width huge ∧ cv_height c = img_height huge ∧
      log σ1 = log σ ++ [ToBlob c (run_format r) None] ∧
      ∀ b : Blob, ∃ σ2 : System,
        step sampleBrowser (BlobCallback (Some b)) σ1 = Some σ2 ∧
        convertedImage (app σ2) =
          Some (mkResult (createObjectURL sampleBrowser b) (run_format r)).
Proof.
  eexists _, _. split; [reflexivity|]. split; [reflexivity|]. split; [reflexivity|].
  eapply any_size_is_encoded; reflexivity.
Defined.

Lemma sampleCodec_keeps_dimensions : encoder_keeps_dimensions sampleCodec.
Proof.
  intros c fmt b Henc. simpl in Henc. unfold sampleEncode in Henc.
  destruct (0 <? cv_width c)%Z eqn:Hw; [|done].
  destruct (0 <? cv_height c)%Z eqn:Hh; [|done]. simpl in Henc.
  destruct (Byte.of_N (Z.to_N (cv_width c))) as [w|] eqn:Hbw; [|done].
  destruct (Byte.of_N (Z.to_N (cv_height c))) as [h|] eqn:Hbh; [|done].
  simplify_eq. apply Byte.to_of_N in Hbw, Hbh.
  pose proof (proj1 (Z.ltb_lt _ _) Hw) as Hw'.
  pose proof (proj1 (Z.ltb_lt _ _) Hh) as Hh'.
  simpl. unfold sampleDecode. simpl. rewrite Hbw, Hbh, !Z2N.id by lia.
  rewrite Hw, Hh. simpl. eexists. repeat split.
Qed.




(** A [null] blob, then a toggle, another format and another file: the call
    is still waiting and the flag is still set. *)
Lemma null_blob_stalls_photo :
  ∃ σ σ' : System,
    exec sampleBrowser [DropFiles [photo]; ClickConvert; ImageLoad opaque]
      initialSystem = Some σ ∧
    exec sampleBrowser
      [BlobCallback None; ClickToggle; SelectFormat ImageJpeg; DropFiles [notes]]
      σ = Some σ' ∧
    stalled σ' ∧ in_flight σ' = true ∧ completion_of σ' = None ∧
    isConverting (app σ') = true ∧
    log σ' = log σ ∧
    (convertedImage (app σ') = convertedImage (app σ) ∨
     convertedImage (app σ') = None).
Proof.
  eexists _, _. split; [reflexivity|]. split; [reflexivity|].
  apply (null_blob_never_settles sampleBrowser
           [DropFiles [photo]; ClickConvert; ImageLoad opaque]
           [ClickToggle; SelectFormat ImageJpeg; DropFiles [notes]]);
    reflexivity.
Defined.

(** The convert function on the page as it first renders. *)
Lemma convertImage_on_fresh_page :
  selectedFile (app initialSystem) = None ∧
  convertImage sampleBrowser initialSystem = initialSystem.
Proof.
  split; [reflexivity|].
  apply (convertImage_without_file sampleBrowser initialSystem). reflexivity.
Defined.

(** * More properties of the page *)

Section Page_properties.

Variable browser : Platform.

Local Abbreviation step := (step browser).
Local Abbreviation exec := (exec browser).
Local Abbreviation reachable := (reachable browser).

(** Induction over the trace that led to a state, event by event. *)
Lemma exec_last (es : list Event) (e : Event) (σ σ'' : System) :
  exec (es ++ [e]) σ = Some σ'' →
  ∃ σ' : System, exec es σ = Some σ' ∧ step e σ' = Some σ''.
Proof.
  rewrite exec_app. destruct (exec es σ) as [σ'|]; simpl; [|done].
  destruct (step e σ') as [σ2|] eqn:He; [|done]. intros. simplify_eq. eauto.
Qed.

Lemma trace_invariant (I : list Event → System → Prop) :
  I [] initialSystem →
  (∀ es e σ σ', I es σ → step e σ = Some σ' → I (es ++ [e]) σ') →
  ∀ es σ, exec es initialSystem = Some σ → I es σ.
Proof.
  intros H0 Hstep es. induction es as [|e es IH] using rev_ind; intros σ Hex.
  - simpl in Hex. by simplify_eq.
  - apply exec_last in Hex as (σ' & Hes & He). eauto.
Qed.

(** ** The converting flag *)

Lemma flag_tracks_run_step (e : Event) (σ σ' : System) :
  flag_tracks_run σ → step e σ = Some σ' → flag_tracks_run σ'.
Proof.
  unfold flag_tracks_run, in_flight, stage_of. intros HI Hstep.
  destruct e; simpl in Hstep.
  - simplify_eq. simpl. by rewrite onDrop_isConverting.
  - destruct (selectedFile (app σ)); simplify_eq. done.
  - destruct (selectedFile (app σ)) as [f|] eqn:Hf; [|done].
    destruct (isConverting (app σ)); simplify_eq.
    unfold convertImage. rewrite Hf. done.
  - simplify_eq. done.
  - destruct (run σ) as [r|]; [|done]. simpl in HI.
    destruct (run_stage r); simplify_eq. done.
  - destruct (run σ) as [r|]; [|done].
    destruct (run_stage r); simplify_eq. done.
  - destruct (run σ) as [r|]; [|done]. simpl in HI.
    destruct (run_stage r) as [|c [|]|]; simplify_eq.
    destruct blob; done.
Qed.

Lemma flag_tracks_run_reachable (σ : System) :
  reachable σ → flag_tracks_run σ.
Proof.
  intros [es Hes].
  eapply (exec_invariant browser flag_tracks_run);
    [apply flag_tracks_run_step| |exact Hes].
  done.
Qed.

(** X2: in every state the page can reach, the converting flag (the spinner
    and the disabled button) is set exactly when a call of [convertImage] has
    not returned: set on entry, cleared by [finally] on success and on a
    decode failure, and by nothing else. *)
Theorem converting_flag_tracks_run (σ : System) :
  reachable σ → isConverting (app σ) = in_flight σ.
Proof. apply flag_tracks_run_reachable. Qed.

(** X3: the convert button can be clicked exactly when a file is selected and
    no call is in flight, so a second conversion never starts while one is
    pending, and the button works again after a success or a decode
    failure. *)
Theorem convert_enabled_iff_idle (σ : System) :
  reachable σ →
  (is_Some (step ClickConvert σ) ↔
   is_Some (selectedFile (app σ)) ∧ in_flight σ = false).
Proof.
  intros Hreach. pose proof (flag_tracks_run_reachable σ Hreach) as Hflag.
  unfold flag_tracks_run in Hflag. simpl. rewrite <- Hflag.
  destruct (selectedFile (app σ)) as [f|]; destruct (isConverting (app σ));
    (split; intros H;
     [try (by destruct H as [? ?]) | try (by destruct H as [[? ?] ?]); try (by destruct H as [_ ?])]);
    eauto.
Qed.

(** ** What the user chose *)

Lemma selected_file_kept_step (e : Event) (σ σ' : System) :
  is_Some (selectedFile (app σ)) → step e σ = Some σ' →
  is_Some (selectedFile (app σ')).
Proof.
  intros Hsel Hstep. destruct e; simpl in Hstep.
  - simplify_eq. simpl. rewrite onDrop_selectedFile.
    destruct acceptedFiles; [done|by eexists].
  - destruct (selectedFile (app σ)) eqn:Hf; simplify_eq. simpl. by rewrite Hf.
  - destruct (selectedFile (app σ)) as [f|] eqn:Hf; [|done].
    destruct (isConverting (app σ)); simplify_eq.
    unfold convertImage. rewrite Hf. simpl. by rewrite Hf.
  - simplify_eq. done.
  - destruct (run σ) as [r|]; [|done].
    destruct (run_stage r); simplify_eq. done.
  - destruct (run σ) as [r|]; [|done].
    destruct (run_stage r); simplify_eq. done.
  - destruct (run σ) as [r|]; [|done].
    destruct (run_stage r) as [|c [|]|]; simplify_eq.
    destruct blob; done.
Qed.

(** X4: once a file is selected the page never goes back to having none:
    a drop with no accepted file leaves the selection, a drop with files
    takes the first, and nothing else touches it.  The format picker and the
    convert button therefore stay rendered. *)
Theorem file_stays_selected (es : list Event) (σ σ' : System) :
  is_Some (selectedFile (app σ)) → exec es σ = Some σ' →
  is_Some (selectedFile (app σ')).
Proof.
  apply (exec_invariant browser (λ σ, is_Some (selectedFile (app σ)))).
  apply selected_file_kept_step.
Qed.

Lemma conversion_step_keeps_choices (e : Event) (σ σ' : System) :
  conversion_event e = true → step e σ = Some σ' → same_choices σ σ'.
Proof.
  unfold same_choices. intros He Hstep. destruct e; try done; simpl in Hstep.
  - destruct (selectedFile (app σ)) as [f|] eqn:Hf; [|done].
    destruct (isConverting (app σ)); simplify_eq.
    unfold convertImage. rewrite Hf. done.
  - destruct (run σ) as [r|]; [|done].
    destruct (run_stage r); simplify_eq. done.
  - destruct (run σ) as [r|]; [|done].
    destruct (run_stage r); simplify_eq. done.
  - destruct (run σ) as [r|]; [|done].
    destruct (run_stage r) as [|c [|]|]; simplify_eq.
    destruct blob; done.
Qed.

(** X5: a conversion never changes what the user chose.  Over any sequence of
    convert clicks and browser callbacks, whether the calls succeed, fail or
    stall, the selected file, the target format, the dark-mode state and the
    document's [dark] class are what they were. *)
Theorem conversions_keep_choices (es : list Event) (σ σ' : System) :
  Forall (λ e, conversion_event e = true) es → exec es σ = Some σ' →
  selectedFile (app σ') = selectedFile (app σ) ∧
  targetFormat (app σ') = targetFormat (app σ) ∧
  isDarkMode (app σ') = isDarkMode (app σ) ∧
  docDark σ' = docDark σ.
Proof.
  intros Hes. revert σ. induction Hes as [|e es He _ IH]; intros σ Hex; simpl in Hex.
  - by simplify_eq.
  - destruct (step e σ) as [σ1|] eqn:Hstep; [|done].
    destruct (conversion_step_keeps_choices _ _ _ He Hstep) as (H1 & H2 & H3 & H4).
    destruct (IH _ Hex) as (G1 & G2 & G3 & G4).
    split_and!; congruence.
Qed.

Lemma theme_sync_step (e : Event) (σ σ' : System) :
  docDark σ = isDarkMode (app σ) → step e σ = Some σ' →
  docDark σ' = isDarkMode (app σ').
Proof.
  intros Hsync Hstep. destruct e; simpl in Hstep.
  - simplify_eq. simpl. unfold onDrop. by case_bool_decide.
  - destruct (selectedFile (app σ)); simplify_eq. done.
  - destruct (selectedFile (app σ)) as [f|] eqn:Hf; [|done].
    destruct (isConverting (app σ)); simplify_eq.
    unfold convertImage. rewrite Hf. done.
  - simplify_eq. simpl. by rewrite Hsync.
  - destruct (run σ) as [r|]; [|done].
    destruct (run_stage r); simplify_eq. done.
  - destruct (run σ) as [r|]; [|done].
    destruct (run_stage r); simplify_eq. done.
  - destruct (run σ) as [r|]; [|done].
    destruct (run_stage r) as [|c [|]|]; simplify_eq.
    destruct blob; done.
Qed.

(** X6: the [dark] class of the document element and the [isDarkMode] state
    stay in step: [toggleDarkMode] flips both and nothing else touches
    either, so when they agree they agree after any sequence of events. *)
Theorem theme_class_in_sync (es : list Event) (σ σ' : System) :
  docDark σ = isDarkMode (app σ) → exec es σ = Some σ' →
  docDark σ' = isDarkMode (app σ').
Proof.
  apply (exec_invariant browser (λ σ, docDark σ = isDarkMode (app σ))).
  apply theme_sync_step.
Qed.

(** ** Successful conversions *)

(** X7: a call that waits for its blob completes whatever the user does in
    the meantime.  After any user events (another file dropped, another
    format picked, the theme toggled) the blob callback is still owed, and
    with a blob it stores a result tagged with the format the call started
    with, clears the flag and leaves the user's newer choices alone; the
    download name then follows the picker's current value. *)
Theorem pending_encode_keeps_its_format
    (mid : list Event) (b : Blob) (σ0 σ1 : System) (r : Run) (c : Canvas) :
  reachable σ0 → run σ0 = Some r → run_stage r = AwaitBlob c true →
  Forall (λ e, user_event e = true) mid → exec mid σ0 = Some σ1 →
  ∃ σ2 : System,
    step (BlobCallback (Some b)) σ1 = Some σ2 ∧
    convertedImage (app σ2) =
      Some (mkResult (createObjectURL browser b) (run_format r)) ∧
    isConverting (app σ2) = false ∧
    selectedFile (app σ2) = selectedFile (app σ1) ∧
    targetFormat (app σ2) = targetFormat (app σ1) ∧
    downloadAttribute (app σ2) = Some (downloadName (targetFormat (app σ1))).
Proof.
  intros Hreach Hr Hst Hmid Hex.
  assert (Hrun : run σ1 = run σ0).
  { apply (user_exec_keeps_run browser mid); [done| |  |done].
    - by apply (flag_covers_run_reachable browser).
    - unfold in_flight, stage_of. rewrite Hr. simpl. by rewrite Hst. }
  exists (toBlob_callback browser r c (Some b) σ1).
  simpl. rewrite Hrun, Hr, Hst. split_and!; done.
Qed.

(** X8: the whole conversion, from any page with a selected file and no
    conversion running.  A click, the image loading and a blob make two
    browser calls (the image source, and [toBlob] on the painted canvas with
    the picker's format), store the blob's URL with that format, clear the
    flag, and offer the result under the name of that format. *)
Theorem conversion_succeeds
    (file : File) (image : Image) (b : Blob) (σ : System) :
  selectedFile (app σ) = Some file → isConverting (app σ) = false →
  ∃ σ' : System,
    exec [ClickConvert; ImageLoad image; BlobCallback (Some b)] σ = Some σ' ∧
    convertedImage (app σ') =
      Some (mkResult (createObjectURL browser b) (targetFormat (app σ))) ∧
    isConverting (app σ') = false ∧
    completion_of σ' = Some Fulfilled ∧
    log σ' = log σ ++
      [ImageSrc (createObjectURL browser (file_blob file));
       ToBlob (paint (getContext2d browser) image) (targetFormat (app σ)) None] ∧
    downloadHref (app σ') = Some (createObjectURL browser b) ∧
    downloadAttribute (app σ') = Some (downloadName (targetFormat (app σ))) ∧
    selectedFile (app σ') = Some file.
Proof.
  intros Hf Hc. eexists. simpl. rewrite Hf, Hc. unfold convertImage. rewrite Hf.
  simpl. split; [reflexivity|]. simpl. rewrite <- app_assoc. split_and!; done.
Qed.

(** X9: for every format of the picker the download name is [converted.]
    followed by the subtype of the MIME string: the split at the slash always
    has a second element, so the name is never [converted.undefined], and two
    formats never share a name. *)
Theorem download_name_is_subtype :
  (∀ fmt : ImageFormat, ∃ ext : string,
     mime fmt = ("image/" ++ ext)%string ∧
     split "/" (mime fmt) = ["image"; ext] ∧
     downloadName fmt = ("converted." ++ ext)%string) ∧
  (∀ fmt1 fmt2 : ImageFormat, downloadName fmt1 = downloadName fmt2 → fmt1 = fmt2).
Proof.
  split.
  - intros []; eexists; repeat split.
  - intros [] []; intros H; try reflexivity; by vm_compute in H.
Qed.

(** ** Where results come from *)

(** X10: the result on display always comes from a blob the browser handed to
    the [toBlob] callback: its URL is the object URL of such a blob, and the
    download link and the share button both point to that URL. *)
Theorem result_comes_from_delivered_blob
    (es : list Event) (σ : System) (res : ConversionResult) :
  exec es initialSystem = Some σ → convertedImage (app σ) = Some res →
  ∃ b : Blob,
    BlobCallback (Some b) ∈ es ∧
    url res = createObjectURL browser b ∧
    downloadHref (app σ) = Some (createObjectURL browser b) ∧
    share_url <$> shareData (app σ) = Some (createObjectURL browser b).
Proof.
  intros Hex Hres.
  assert (H : ∃ b : Blob, BlobCallback (Some b) ∈ es ∧ url res = createObjectURL browser b).
  { revert res Hres. revert es σ Hex.
    apply (trace_invariant (λ es σ, ∀ res, convertedImage (app σ) = Some res →
             ∃ b : Blob, BlobCallback (Some b) ∈ es ∧ url res = createObjectURL browser b));
      [done|].
    intros es e σ σ' HI Hstep res Hres.
    assert (Hold : convertedImage (app σ) = Some res →
              ∃ b : Blob, BlobCallback (Some b) ∈ es ++ [e] ∧
                          url res = createObjectURL browser b).
    { intros Hsome. destruct (HI res Hsome) as (b & Hb & Hu).
      exists b. split; [|done]. apply elem_of_app. by left. }
    destruct e; simpl in Hstep.
    - simplify_eq. simpl in Hres.
      destruct (onDrop_convertedImage acceptedFiles (app σ)) as [Heq|Heq];
        rewrite Heq in Hres; [auto|done].
    - destruct (selectedFile (app σ)); simplify_eq. auto.
    - destruct (selectedFile (app σ)) as [f|] eqn:Hf; [|done].
      destruct (isConverting (app σ)); simplify_eq.
      unfold convertImage in Hres. rewrite Hf in Hres. auto.
    - simplify_eq. auto.
    - destruct (run σ) as [r|]; [|done].
      destruct (run_stage r); simplify_eq. auto.
    - destruct (run σ) as [r|]; [|done].
      destruct (run_stage r); simplify_eq. auto.
    - destruct (run σ) as [r|]; [|done].
      destruct (run_stage r) as [|c [|]|]; simplify_eq.
      destruct blob as [b|]; simpl in Hres; [|auto].
      simplify_eq. exists b. split; [|done].
      apply elem_of_app. right. apply list_elem_of_here. }
  destruct H as (b & Hb & Hu). exists b.
  unfold downloadHref, shareData. rewrite Hres. simpl. rewrite Hu. done.
Qed.

Lemma run_ctx_step (e : Event) (σ σ' : System) :
  (∀ r, run σ = Some r → run_ctx r = getContext2d browser) →
  step e σ = Some σ' →
  ∀ r, run σ' = Some r → run_ctx r = getContext2d browser.
Proof.
  intros HI Hstep r' Hr'. destruct e; simpl in Hstep.
  - simplify_eq. auto.
  - destruct (selectedFile (app σ)); simplify_eq. auto.
  - destruct (selectedFile (app σ)) as [f|] eqn:Hf; [|done].
    destruct (isConverting (app σ)); simplify_eq.
    unfold convertImage in Hr'. rewrite Hf in Hr'. simpl in Hr'. by simplify_eq.
  - simplify_eq. auto.
  - destruct (run σ) as [r|] eqn:Hr; [|done].
    destruct (run_stage r); simplify_eq. simpl in Hr'. simplify_eq. simpl. auto.
  - destruct (run σ) as [r|] eqn:Hr; [|done].
    destruct (run_stage r); simplify_eq. simpl in Hr'. simplify_eq. simpl. auto.
  - destruct (run σ) as [r|] eqn:Hr; [|done].
    destruct (run_stage r) as [|c [|]|]; simplify_eq.
    destruct blob; simpl in Hr'; simplify_eq; simpl; auto.
Qed.

(** X11: the encoder always gets a canvas of the size of a decoded image.
    Every canvas passed to [toBlob] has the width and the height of an image
    the browser loaded earlier: the code neither scales nor crops.  And when
    no 2D context was obtained the optional [drawImage] call is skipped and
    the conversion goes on all the same, with the canvas left blank. *)
Theorem encoder_gets_image_size
    (es : list Event) (σ : System) (c : Canvas) (fmt : ImageFormat) (q : option Q) :
  exec es initialSystem = Some σ → ToBlob c fmt q ∈ log σ →
  ∃ image : Image,
    ImageLoad image ∈ es ∧
    cv_width c = img_width image ∧ cv_height c = img_height image ∧
    (getContext2d browser = false →
     cv_pixels c = blank (img_width image) (img_height image)).
Proof.
  intros Hex Hin.
  assert (H : (∀ r, run σ = Some r → run_ctx r = getContext2d browser) ∧
              ∀ c fmt q, ToBlob c fmt q ∈ log σ →
                ∃ image, ImageLoad image ∈ es ∧ c = paint (getContext2d browser) image).
  { clear c fmt q Hin. revert es σ Hex.
    apply (trace_invariant (λ es σ,
             (∀ r, run σ = Some r → run_ctx r = getContext2d browser) ∧
             ∀ c fmt q, ToBlob c fmt q ∈ log σ →
               ∃ image, ImageLoad image ∈ es ∧ c = paint (getContext2d browser) image)).
    { split; [done|]. intros c fmt q Hin. by apply elem_of_nil in Hin. }
    intros es e σ σ' [Hctx Hlog] Hstep.
    split; [by eapply run_ctx_step|].
    intros c fmt q Hin.
    assert (Hold : ToBlob c fmt q ∈ log σ →
              ∃ image, ImageLoad image ∈ es ++ [e] ∧ c = paint (getContext2d browser) image).
    { intros Hin'. destruct (Hlog _ _ _ Hin') as (image & Him & Hc).
      exists image. split; [|done]. apply elem_of_app. by left. }
    destruct e; simpl in Hstep.
    - simplify_eq. auto.
    - destruct (selectedFile (app σ)); simplify_eq. auto.
    - destruct (selectedFile (app σ)) as [f|] eqn:Hf; [|done].
      destruct (isConverting (app σ)); simplify_eq.
      unfold convertImage in Hin. rewrite Hf in Hin. simpl in Hin.
      apply elem_of_app in Hin as [Hin|Hin]; [auto|].
      apply list_elem_of_singleton in Hin. done.
    - simplify_eq. auto.
    - destruct (run σ) as [r|] eqn:Hr; [|done].
      destruct (run_stage r); simplify_eq. simpl in Hin.
      apply elem_of_app in Hin as [Hin|Hin]; [auto|].
      apply list_elem_of_singleton in Hin. simplify_eq.
      exists image. split; [apply elem_of_app; right; apply list_elem_of_here|].
      by rewrite (Hctx r).
    - destruct (run σ) as [r|]; [|done].
      destruct (run_stage r); simplify_eq. simpl in Hin.
      apply elem_of_app in Hin as [Hin|Hin]; [auto|].
      apply list_elem_of_singleton in Hin. done.
    - destruct (run σ) as [r|]; [|done].
      destruct (run_stage r) as [|c' [|]|]; simplify_eq.
      destruct blob; simpl in Hin; auto. }
  destruct H as [_ H]. destruct (H _ _ _ Hin) as (image & Him & ->).
  exists image. unfold paint. simpl. split_and!; try done.
  by intros ->.
Qed.

(** ** Accounting for browser calls *)

Lemma calls_snoc (kind : Effect → bool) (l : list Effect) (x : Effect) :
  calls kind (l ++ [x]) = (calls kind l + (if kind x then 1 else 0))%nat.
Proof.
  unfold calls. rewrite List.filter_app, length_app. simpl.
  by destruct (kind x).
Qed.

Lemma log_accounted_step (e : Event) (σ σ' : System) :
  flag_covers_run σ ∧ log_accounted σ → step e σ = Some σ' →
  flag_covers_run σ' ∧ log_accounted σ'.
Proof.
  intros [Hflag Hacc] Hstep.
  split; [by eapply (flag_covers_run_step browser)|].
  unfold log_accounted, awaiting_image, flag_covers_run, in_flight, stage_of in *.
  destruct e; simpl in Hstep.
  - by simplify_eq.
  - destruct (selectedFile (app σ)); by simplify_eq.
  - destruct (selectedFile (app σ)) as [f|] eqn:Hf; [|done].
    destruct (isConverting (app σ)) eqn:Hc; simplify_eq.
    unfold convertImage. rewrite Hf. simpl. rewrite !calls_snoc. simpl.
    destruct (run σ) as [r|]; simpl in *; [|lia].
    destruct (run_stage r); [by specialize (Hflag eq_refl)|lia|lia].
  - by simplify_eq.
  - destruct (run σ) as [r|]; [|done]. simpl in Hacc.
    destruct (run_stage r); simplify_eq. simpl. rewrite !calls_snoc. simpl. lia.
  - destruct (run σ) as [r|]; [|done]. simpl in Hacc.
    destruct (run_stage r); simplify_eq. simpl. rewrite !calls_snoc. simpl. lia.
  - destruct (run σ) as [r|]; [|done]. simpl in Hacc.
    destruct (run_stage r) as [|c [|]|]; simplify_eq.
    destruct blob; simpl; lia.
Qed.


Lemma never_rejected_step (e : Event) (σ σ' : System) :
  never_rejected σ → step e σ = Some σ' → never_rejected σ'.
Proof.
  unfold never_rejected, completion_of, stage_of. intros HI Hstep.
  destruct e; simpl in Hstep.
  - by simplify_eq.
  - destruct (selectedFile (app σ)); by simplify_eq.
  - destruct (selectedFile (app σ)) as [f|] eqn:Hf; [|done].
    destruct (isConverting (app σ)); simplify_eq.
    unfold convertImage. rewrite Hf. simpl. auto.
  - by simplify_eq.
  - destruct (run σ) as [r|]; [|done].
    destruct (run_stage r); simplify_eq. simpl. auto.
  - destruct (run σ) as [r|]; [|done].
    destruct (run_stage r); simplify_eq. simpl. auto.
  - destruct (run σ) as [r|]; [|done].
    destruct (run_stage r) as [|c [|]|]; simplify_eq.
    destruct blob; simpl; auto.
Qed.

(** X13: [convertImage] never rejects.  In every reachable state the latest
    call either has not returned or returned normally: the [catch] block
    takes every failure, so the click handler never sees a rejected
    promise. *)
Theorem convertImage_never_rejects (σ : System) :
  reachable σ →
  completion_of σ = None ∨ completion_of σ = Some Fulfilled.
Proof.
  intros [es Hes].
  eapply (exec_invariant browser never_rejected);
    [apply never_rejected_step| |exact Hes].
  by left.
Qed.

End Page_properties.

(** ** Instances of the page properties *)

(** While [photo] is being decoded the flag is set and a call is in flight. *)
Lemma flag_set_while_decoding :
  ∃ σ : System,
    exec sampleBrowser [DropFiles [photo]; ClickConvert] initialSystem = Some σ ∧
    reachable sampleBrowser σ ∧
    in_flight σ = true ∧
    isConverting (app σ) = in_flight σ.
Proof.
  eexists. split; [reflexivity|].
  assert (Hreach : reachable sampleBrowser
            (convertImage sampleBrowser (with_app (onDrop [photo]) initialSystem))).
  { exists [DropFiles [photo]; ClickConvert]. reflexivity. }
  split; [exact Hreach|]. split; [reflexivity|].
  exact (converting_flag_tracks_run sampleBrowser _ Hreach).
Defined.

(** After a decode failure the button works again. *)
Lemma convert_enabled_after_failure :
  ∃ σ : System,
    exec sampleBrowser [DropFiles [notes]; ClickConvert; ImageError "error"]
      initialSystem = Some σ ∧
    reachable sampleBrowser σ ∧
    is_Some (selectedFile (app σ)) ∧ in_flight σ = false ∧
    (is_Some (step sampleBrowser ClickConvert σ) ↔
     is_Some (selectedFile (app σ)) ∧ in_flight σ = false).
Proof.
  eexists. split; [reflexivity|].
  match goal with |- reachable _ ?s ∧ _ =>
    assert (Hreach : reachable sampleBrowser s)
      by (exists [DropFiles [notes]; ClickConvert; ImageError "error"]; reflexivity)
  end.
  split; [exact Hreach|]. split; [by eexists|]. split; [reflexivity|].
  exact (convert_enabled_iff_idle sampleBrowser _ Hreach).
Defined.

(** An empty drop, a failed conversion and another drop keep a file
    selected. *)
Lemma file_stays_selected_after_photo :
  ∃ σ σ' : System,
    exec sampleBrowser [DropFiles [photo]] initialSystem = Some σ ∧
    is_Some (selectedFile (app σ)) ∧
    exec sampleBrowser
      [DropFiles []; ClickConvert; ImageError "error"; DropFiles [notes; photo]]
      σ = Some σ' ∧
    is_Some (selectedFile (app σ')).
Proof.
  eexists _, _. split; [reflexivity|].
  assert (Hsel : is_Some (selectedFile (app (with_app (onDrop [photo]) initialSystem))))
    by (by eexists).
  split; [exact Hsel|]. split; [reflexivity|].
  exact (file_stays_selected sampleBrowser
           [DropFiles []; ClickConvert; ImageError "error"; DropFiles [notes; photo]]
           _ _ Hsel eq_refl).
Defined.

(** A conversion that stalls leaves the file, the format and the theme. *)
Lemma stalled_conversion_keeps_choices :
  ∃ σ σ' : System,
    exec sampleBrowser [DropFiles [photo]; SelectFormat ImageGif; ClickToggle]
      initialSystem = Some σ ∧
    exec sampleBrowser [ClickConvert; ImageLoad opaque; BlobCallback None] σ = Some σ' ∧
    selectedFile (app σ') = selectedFile (app σ) ∧
    targetFormat (app σ') = targetFormat (app σ) ∧
    isDarkMode (app σ') = isDarkMode (app σ) ∧
    docDark σ' = docDark σ.
Proof.
  eexists _, _. split; [reflexivity|]. split; [reflexivity|].
  apply (conversions_keep_choices sampleBrowser
           [ClickConvert; ImageLoad opaque; BlobCallback None]);
    [repeat constructor|reflexivity].
Defined.

(** Three toggles around a drop, from the page as it first renders. *)
Lemma theme_in_sync_after_toggles :
  ∃ σ' : System,
    docDark initialSystem = isDarkMode (app initialSystem) ∧
    exec sampleBrowser [ClickToggle; DropFiles [photo]; ClickToggle; ClickToggle]
      initialSystem = Some σ' ∧
    isDarkMode (app σ') = true ∧
    docDark σ' = isDarkMode (app σ').
Proof.
  eexists. split; [reflexivity|]. split; [reflexivity|]. split; [reflexivity|].
  apply (theme_class_in_sync sampleBrowser
           [ClickToggle; DropFiles [photo]; ClickToggle; ClickToggle] initialSystem);
    reflexivity.
Defined.

(** While [photo] is encoded as PNG the user drops [notes] and picks JPEG:
    the PNG result of [photo] is stored beside the new selection. *)
Lemma png_result_after_new_drop :
  ∃ (σ0 σ1 : System) (r : Run) (c : Canvas),
    reachable sampleBrowser σ0 ∧
    run σ0 = Some r ∧ run_stage r = AwaitBlob c true ∧
    exec sampleBrowser [DropFiles [notes]; SelectFormat ImageJpeg] σ0 = Some σ1 ∧
    run_format r = ImagePng ∧
    selectedFile (app σ1) = Some notes ∧
    ∃ σ2 : System,
      step sampleBrowser (BlobCallback (Some pngBlob)) σ1 = Some σ2 ∧
      convertedImage (app σ2) =
        Some (mkResult (createObjectURL sampleBrowser pngBlob) (run_format r)) ∧
      isConverting (app σ2) = false ∧
      selectedFile (app σ2) = selectedFile (app σ1) ∧
      targetFormat (app σ2) = targetFormat (app σ1) ∧
      downloadAttribute (app σ2) = Some (downloadName (targetFormat (app σ1))).
Proof.
  assert (Hreach : reachable sampleBrowser
            (mkSystem (mkApp false true (Some photo) None ImagePng) false
               (Some (mkRun photo ImagePng true (AwaitBlob (paint true opaque) true)))
               [ImageSrc "blob:image/png"; ToBlob (paint true opaque) ImagePng None])).
  { exists [DropFiles [photo]; ClickConvert; ImageLoad opaque]. reflexivity. }
  eexists _, _, _, _. split; [exact Hreach|].
  split; [reflexivity|]. split; [reflexivity|]. split; [reflexivity|].
  split; [reflexivity|]. split; [reflexivity|].
  eapply (pending_encode_keeps_its_format sampleBrowser
            [DropFiles [notes]; SelectFormat ImageJpeg] pngBlob);
    [exact Hreach|reflexivity|reflexivity|repeat constructor|reflexivity].
Defined.

(** [photo] converted with the picker at WEBP. *)
Lemma photo_converts_to_webp :
  ∃ σ : System,
    exec sampleBrowser [DropFiles [photo]; SelectFormat ImageWebp] initialSystem = Some σ ∧
    selectedFile (app σ) = Some photo ∧ isConverting (app σ) = false ∧
    ∃ σ' : System,
      exec sampleBrowser [ClickConvert; ImageLoad opaque; BlobCallback (Some pngBlob)] σ
        = Some σ' ∧
      convertedImage (app σ') =
        Some (mkResult (createObjectURL sampleBrowser pngBlob) (targetFormat (app σ))) ∧
      isConverting (app σ') = false ∧
      completion_of σ' = Some Fulfilled ∧
      log σ' = log σ ++
        [ImageSrc (createObjectURL sampleBrowser (file_blob photo));
         ToBlob (paint (getContext2d sampleBrowser) opaque) (targetFormat (app σ)) None] ∧
      downloadHref (app σ') = Some (createObjectURL sampleBrowser pngBlob) ∧
      downloadAttribute (app σ') = Some (downloadName (targetFormat (app σ))) ∧
      selectedFile (app σ') = Some photo.
Proof.
  eexists. split; [reflexivity|]. split; [reflexivity|]. split; [reflexivity|].
  apply (conversion_succeeds sampleBrowser photo opaque pngBlob); reflexivity.
Defined.

(** The PNG result of [photo] points to the blob the browser delivered. *)
Lemma photo_result_is_delivered_blob :
  ∃ (σ : System) (res : ConversionResult),
    exec sampleBrowser
      [DropFiles [photo]; ClickConvert; ImageLoad opaque; BlobCallback (Some pngBlob)]
      initialSystem = Some σ ∧
    convertedImage (app σ) = Some res ∧
    ∃ b : Blob,
      BlobCallback (Some b) ∈
        [DropFiles [photo]; ClickConvert; ImageLoad opaque; BlobCallback (Some pngBlob)] ∧
      url res = createObjectURL sampleBrowser b ∧
      downloadHref (app σ) = Some (createObjectURL sampleBrowser b) ∧
      share_url <$> shareData (app σ) = Some (createObjectURL sampleBrowser b).
Proof.
  eexists _, _. split; [reflexivity|]. split; [reflexivity|].
  apply (result_comes_from_delivered_blob sampleBrowser
           [DropFiles [photo]; ClickConvert; ImageLoad opaque; BlobCallback (Some pngBlob)]);
    reflexivity.
Defined.

(** In a browser that hands out no 2D context the half-transparent image is
    still sent to the encoder, as a blank 2x1 canvas. *)
Lemma contextless_canvas_is_blank :
  ∃ σ : System,
    exec contextlessBrowser
      [DropFiles [photo]; SelectFormat ImageJpeg; ClickConvert; ImageLoad translucent]
      initialSystem = Some σ ∧
    ToBlob (mkCanvas 2 1 [transparentBlack; transparentBlack]) ImageJpeg None ∈ log σ ∧
    ∃ image : Image,
      ImageLoad image ∈
        [DropFiles [photo]; SelectFormat ImageJpeg; ClickConvert; ImageLoad translucent] ∧
      cv_width (mkCanvas 2 1 [transparentBlack; transparentBlack]) = img_width image ∧
      cv_height (mkCanvas 2 1 [transparentBlack; transparentBlack]) = img_height image ∧
      (getContext2d contextlessBrowser = false →
       cv_pixels (mkCanvas 2 1 [transparentBlack; transparentBlack]) =
         blank (img_width image) (img_height image)).
Proof.
  eexists. split; [reflexivity|].
  assert (Hin : ToBlob (mkCanvas 2 1 [transparentBlack; transparentBlack]) ImageJpeg None ∈
                [ImageSrc "blob:image/png";
                 ToBlob (mkCanvas 2 1 [transparentBlack; transparentBlack]) ImageJpeg None])
    by apply list_elem_of_further, list_elem_of_here.
  split; [exact Hin|].
  exact (encoder_gets_image_size contextlessBrowser
           [DropFiles [photo]; SelectFormat ImageJpeg; ClickConvert; ImageLoad translucent]
           _ _ _ _ eq_refl Hin).
Defined.


(** After a decode failure the call has returned normally. *)
Lemma failed_call_is_fulfilled :
  ∃ σ : System,
    exec sampleBrowser [DropFiles [notes]; ClickConvert; ImageError "error"]
      initialSystem = Some σ ∧
    reachable sampleBrowser σ ∧
    (completion_of σ = None ∨ completion_of σ = Some Fulfilled).
Proof.
  eexists. split; [reflexivity|].
  match goal with |- reachable _ ?s ∧ _ =>
    assert (Hreach : reachable sampleBrowser s)
      by (exists [DropFiles [notes]; ClickConvert; ImageError "error"]; reflexivity)
  end.
  split; [exact Hreach|].
  exact (convertImage_never_rejects sampleBrowser _ Hreach).
Defined.
